(** * Scratchpad autosave: the dirty / debounce / flush machine

    A shallow embedding of [desktop/src/components/Scratchpad.tsx].

    The component is a React function component.  Its behaviour lives in
    two [useState] cells ([value], [dirty]), three [useRef] cells, seven
    [useEffect] hooks with dependency arrays, one [useCallback] event
    handler ([onChange]) and one [setTimeout] callback.  The embedding
    keeps that shape:

    - a [Machine] holds the state cells, the ref cells, the props, the
      values of the last committed render (against which dependency
      arrays are compared), the cleanup closure of the debounce effect,
      and the outside world (clock, live timers, the log of calls made to
      [saveMutation.mutate], [setTimeout] and [clearTimeout]);
    - each effect is one definition named after the comment above it in
      the source;
    - [commit] is React's commit phase: cleanups of the effects whose
      dependencies changed, in declaration order, then their bodies, in
      declaration order; state setters called by effects take effect in
      the next render, which [settle] runs until nothing changes.

    The hooks [useScratchpad] and [useSaveScratchpad] live in
    [../lib/hooks], outside this file.  What they return is an input of
    each render: the loaded [content] (or [undefined]), and the
    [saveMutation] object, of which only the identity matters here because
    it sits in two dependency arrays.  That identity is the section
    variable [saveMutationId], a function of the render count. *)

From Stdlib Require Import String List Bool Arith Lia.
Import ListNotations.
Open Scope string_scope.

(** ** Data *)

(** The two places that call [saveMutation.mutate]. *)
Inductive Site : Type :=
| AtUnmount    (* line 32, cleanup of the "save on unmount" effect *)
| AtDebounce.  (* line 53, the [setTimeout] callback *)

(** What crosses the boundary of the component, newest first in the log:
    the calls it makes, and the runtime starting a timer's callback. *)
Inductive Call : Type :=
| Mutate (site : Site) (wsId content : string)
| SetTimeout (id : nat)
| ClearTimeout (id : nat)
| TimerFired (id : nat).

(** A live timer: the closure created on line 52 captured [workspaceId]
    and [value] of the render that armed it. *)
Record Timer : Type := mkTimer {
  tid : nat;
  due : nat;
  t_wsId : string;
  t_content : string
}.

(** The values one render closes over. *)
Record Render : Type := mkRender {
  r_value : string;
  r_dirty : bool;
  r_workspaceId : string;
  r_content : option string;
  r_saveMutation : nat
}.

Record Machine : Type := mkMachine {
  (* useState *)
  value : string;
  dirty : bool;
  (* useRef *)
  valueRef : string;
  dirtyRef : bool;
  workspaceIdRef : string;
  (* props and useScratchpad's data *)
  workspaceId : string;
  content : option string;
  (* React bookkeeping *)
  mounted : bool;
  committed : option Render;
  debounce_cleanup : option nat;
  renders : nat;
  (* the world *)
  now : nat;
  timers : list Timer;
  next_timer : nat;
  calls : list Call
}.

(** The quiet period, the second argument of [setTimeout] on line 55. *)
Definition DEBOUNCE_MS : nat := 1000.

(** ** Field updates *)

Definition set_value (v : string) (m : Machine) : Machine :=
  let 'mkMachine _ d0 vr0 dr0 wr0 w0 c0 mt0 cm0 dc0 rn0 nw0 ts0 nt0 cs0 := m in
  mkMachine v d0 vr0 dr0 wr0 w0 c0 mt0 cm0 dc0 rn0 nw0 ts0 nt0 cs0.

Definition set_dirty (d : bool) (m : Machine) : Machine :=
  let 'mkMachine v0 _ vr0 dr0 wr0 w0 c0 mt0 cm0 dc0 rn0 nw0 ts0 nt0 cs0 := m in
  mkMachine v0 d vr0 dr0 wr0 w0 c0 mt0 cm0 dc0 rn0 nw0 ts0 nt0 cs0.

Definition set_valueRef (v : string) (m : Machine) : Machine :=
  let 'mkMachine v0 d0 _ dr0 wr0 w0 c0 mt0 cm0 dc0 rn0 nw0 ts0 nt0 cs0 := m in
  mkMachine v0 d0 v dr0 wr0 w0 c0 mt0 cm0 dc0 rn0 nw0 ts0 nt0 cs0.

Definition set_dirtyRef (d : bool) (m : Machine) : Machine :=
  let 'mkMachine v0 d0 vr0 _ wr0 w0 c0 mt0 cm0 dc0 rn0 nw0 ts0 nt0 cs0 := m in
  mkMachine v0 d0 vr0 d wr0 w0 c0 mt0 cm0 dc0 rn0 nw0 ts0 nt0 cs0.

Definition set_workspaceIdRef (w : string) (m : Machine) : Machine :=
  let 'mkMachine v0 d0 vr0 dr0 _ w0 c0 mt0 cm0 dc0 rn0 nw0 ts0 nt0 cs0 := m in
  mkMachine v0 d0 vr0 dr0 w w0 c0 mt0 cm0 dc0 rn0 nw0 ts0 nt0 cs0.

Definition set_props (w : string) (c : option string) (m : Machine) : Machine :=
  let 'mkMachine v0 d0 vr0 dr0 wr0 _ _ mt0 cm0 dc0 rn0 nw0 ts0 nt0 cs0 := m in
  mkMachine v0 d0 vr0 dr0 wr0 w c mt0 cm0 dc0 rn0 nw0 ts0 nt0 cs0.

Definition set_mounted (b : bool) (m : Machine) : Machine :=
  let 'mkMachine v0 d0 vr0 dr0 wr0 w0 c0 _ cm0 dc0 rn0 nw0 ts0 nt0 cs0 := m in
  mkMachine v0 d0 vr0 dr0 wr0 w0 c0 b cm0 dc0 rn0 nw0 ts0 nt0 cs0.

Definition set_committed (r : option Render) (m : Machine) : Machine :=
  let 'mkMachine v0 d0 vr0 dr0 wr0 w0 c0 mt0 _ dc0 rn0 nw0 ts0 nt0 cs0 := m in
  mkMachine v0 d0 vr0 dr0 wr0 w0 c0 mt0 r dc0 rn0 nw0 ts0 nt0 cs0.

Definition set_debounce_cleanup (c : option nat) (m : Machine) : Machine :=
  let 'mkMachine v0 d0 vr0 dr0 wr0 w0 c0 mt0 cm0 _ rn0 nw0 ts0 nt0 cs0 := m in
  mkMachine v0 d0 vr0 dr0 wr0 w0 c0 mt0 cm0 c rn0 nw0 ts0 nt0 cs0.

Definition set_renders (n : nat) (m : Machine) : Machine :=
  let 'mkMachine v0 d0 vr0 dr0 wr0 w0 c0 mt0 cm0 dc0 _ nw0 ts0 nt0 cs0 := m in
  mkMachine v0 d0 vr0 dr0 wr0 w0 c0 mt0 cm0 dc0 n nw0 ts0 nt0 cs0.

Definition set_now (t : nat) (m : Machine) : Machine :=
  let 'mkMachine v0 d0 vr0 dr0 wr0 w0 c0 mt0 cm0 dc0 rn0 _ ts0 nt0 cs0 := m in
  mkMachine v0 d0 vr0 dr0 wr0 w0 c0 mt0 cm0 dc0 rn0 t ts0 nt0 cs0.

Definition set_world (ts : list Timer) (n : nat) (cs : list Call) (m : Machine) : Machine :=
  let 'mkMachine v0 d0 vr0 dr0 wr0 w0 c0 mt0 cm0 dc0 rn0 nw0 _ _ _ := m in
  mkMachine v0 d0 vr0 dr0 wr0 w0 c0 mt0 cm0 dc0 rn0 nw0 ts n cs.

(** ** The outside world *)

(** [saveMutation.mutate({ wsId, content })]: the request is issued and
    nothing is awaited. *)
Definition mutate (site : Site) (wsId c : string) (m : Machine) : Machine :=
  set_world (timers m) (next_timer m) (Mutate site wsId c :: calls m) m.

(** [setTimeout(callback, 1000)] where the callback closed over [wsId]
    and [c]; returns the handle. *)
Definition setTimeout (wsId c : string) (m : Machine) : nat * Machine :=
  let id := next_timer m in
  (id, set_world (timers m ++ [mkTimer id (now m + DEBOUNCE_MS) wsId c])
         (S id) (SetTimeout id :: calls m) m).

(** [clearTimeout(timer)]; clearing a timer that already fired is a call
    all the same. *)
Definition clearTimeout (id : nat) (m : Machine) : Machine :=
  set_world (filter (fun t => negb (Nat.eqb (tid t) id)) (timers m))
    (next_timer m) (ClearTimeout id :: calls m) m.

(** ** State setters *)

Definition setValue (v : string) (m : Machine) : Machine := set_value v m.
Definition setDirty (d : bool) (m : Machine) : Machine := set_dirty d m.

(** ** The effects, in declaration order *)

(** Lines 24-26, "Keep refs in sync". *)
Definition effect_valueRef (r : Render) (m : Machine) : Machine :=
  set_valueRef (r_value r) m.

Definition effect_dirtyRef (r : Render) (m : Machine) : Machine :=
  set_dirtyRef (r_dirty r) m.

Definition effect_workspaceIdRef (r : Render) (m : Machine) : Machine :=
  set_workspaceIdRef (r_workspaceId r) m.

(** Lines 29-35, "Save immediately on unmount if dirty": the body only
    returns the cleanup; the cleanup reads the three refs. *)
Definition effect_unmount_save (r : Render) (m : Machine) : Machine := m.

Definition cleanup_unmount_save (m : Machine) : Machine :=
  if dirtyRef m
  then mutate AtUnmount (workspaceIdRef m) (valueRef m) m
  else m.

(** Lines 38-40, "Reset dirty state when workspace changes". *)
Definition effect_reset_dirty (r : Render) (m : Machine) : Machine :=
  setDirty false m.

(** Lines 43-47, "Sync with loaded content". *)
Definition effect_sync_content (r : Render) (m : Machine) : Machine :=
  match r_content r with
  | Some c => if negb (r_dirty r) then setValue c m else m
  | None => m
  end.

(** Lines 50-57, "Debounced save": the body arms the timer unless the
    render is clean; the cleanup clears the timer the body armed. *)
Definition effect_debounced_save (r : Render) (m : Machine) : Machine :=
  if negb (r_dirty r) then set_debounce_cleanup None m
  else
    let (id, m') := setTimeout (r_workspaceId r) (r_value r) m in
    set_debounce_cleanup (Some id) m'.

Definition cleanup_debounced_save (m : Machine) : Machine :=
  match debounce_cleanup m with
  | Some id => clearTimeout id m
  | None => m
  end.

(** Lines 59-62, [onChange]. *)
Definition onChange (val : string) (m : Machine) : Machine :=
  setDirty true (setValue val m).

(** ** Dependency arrays *)

Inductive Dep : Type :=
| DValue | DDirty | DWorkspaceId | DContent | DSaveMutation.

Definition option_string_eqb (a b : option string) : bool :=
  match a, b with
  | Some x, Some y => String.eqb x y
  | None, None => true
  | _, _ => false
  end.

(** [Object.is] on the two renders' values of one dependency. *)
Definition dep_changed (p r : Render) (d : Dep) : bool :=
  match d with
  | DValue => negb (String.eqb (r_value p) (r_value r))
  | DDirty => negb (Bool.eqb (r_dirty p) (r_dirty r))
  | DWorkspaceId => negb (String.eqb (r_workspaceId p) (r_workspaceId r))
  | DContent => negb (option_string_eqb (r_content p) (r_content r))
  | DSaveMutation => negb (Nat.eqb (r_saveMutation p) (r_saveMutation r))
  end.

Definition deps_changed (p r : Render) (ds : list Dep) : bool :=
  existsb (dep_changed p r) ds.

Definition deps_valueRef := [DValue].
Definition deps_dirtyRef := [DDirty].
Definition deps_workspaceIdRef := [DWorkspaceId].
Definition deps_unmount_save := [DSaveMutation].
Definition deps_reset_dirty := [DWorkspaceId].
Definition deps_sync_content := [DContent; DDirty; DWorkspaceId].
Definition deps_debounced_save :=
  [DValue; DDirty; DWorkspaceId; DSaveMutation].

Definition run_if (b : bool) (f : Machine -> Machine) (m : Machine)
  : Machine := if b then f m else m.

(** ** One commit *)

(** On the first commit every body runs and there is no cleanup to run.
    On later commits the effects whose dependencies changed run their
    cleanups first, all of them, then their bodies. *)
Definition commit (r : Render) (m : Machine) : Machine :=
  let again := match committed m with Some _ => true | None => false end in
  let ch ds := match committed m with
               | Some p => deps_changed p r ds
               | None => true
               end in
  let m := run_if (again && ch deps_unmount_save) cleanup_unmount_save m in
  let m := run_if (again && ch deps_debounced_save) cleanup_debounced_save m in
  let m := run_if (ch deps_valueRef) (effect_valueRef r) m in
  let m := run_if (ch deps_dirtyRef) (effect_dirtyRef r) m in
  let m := run_if (ch deps_workspaceIdRef) (effect_workspaceIdRef r) m in
  let m := run_if (ch deps_unmount_save) (effect_unmount_save r) m in
  let m := run_if (ch deps_reset_dirty) (effect_reset_dirty r) m in
  let m := run_if (ch deps_sync_content) (effect_sync_content r) m in
  let m := run_if (ch deps_debounced_save) (effect_debounced_save r) m in
  set_committed (Some r) m.

(** The status line of line 147. *)
Definition status (isPending d : bool) : string :=
  if isPending then "Saving..." else if d then "Unsaved" else "Saved".

(** What the component returns (lines 64-150), theme and layout left out. *)
Inductive View : Type :=
| LoadingView
| ErrorView (message : string)
| EditorView (buffer : string) (footer : string).

Definition view (isLoading : bool) (error : option string)
  (isPending : bool) (m : Machine) : View :=
  if isLoading then LoadingView
  else match error with
       | Some msg => ErrorView msg
       | None => EditorView (value m) (status isPending (dirty m))
       end.

Section Scratchpad.

(** Identity of the object [useSaveScratchpad(home)] returns at the n-th
    render.  A constant function is a hook that returns the same object
    every time; [fun n => n] is a hook that builds a new one per render. *)
Variable saveMutationId : nat -> nat.

(** One render followed by its commit.  The state setters called during
    one event are batched: the render sees all of them. *)
Definition render (m : Machine) : Machine :=
  let r := mkRender (value m) (dirty m) (workspaceId m) (content m)
             (saveMutationId (renders m)) in
  commit r (set_renders (S (renders m)) m).

(** A state setter that did change a cell schedules a render; one that
    stored the value the cell already had does not. *)
Definition needs_render (m : Machine) : bool :=
  match committed m with
  | Some p =>
      negb (String.eqb (value m) (r_value p))
      || negb (Bool.eqb (dirty m) (r_dirty p))
  | None => false
  end.

(** Render again for as long as the last commit changed a state cell.
    [settled_after_every_event] below shows that [SETTLE_FUEL] rounds are
    enough: no render is pending when an event has been handled. *)
Fixpoint settle (fuel : nat) (m : Machine) : Machine :=
  match fuel with
  | O => m
  | S k => if needs_render m then settle k (render m) else m
  end.

Definition SETTLE_FUEL : nat := 4.

(** The callback of line 52, run when timer [t] fires. *)
Definition timer_callback (t : Timer) (m : Machine) : Machine :=
  let m := mutate AtDebounce (t_wsId t) (t_content t) m in
  if mounted m then settle SETTLE_FUEL (setDirty false m) else m.

(** The runtime takes timer [id] off its list as it starts the callback. *)
Definition remove_timer (id : nat) (m : Machine) : Machine :=
  set_world (filter (fun t => negb (Nat.eqb (tid t) id)) (timers m))
    (next_timer m) (TimerFired id :: calls m) m.

(** Fire, earliest first, the timers due by [target].  The fuel [elapse]
    gives is enough: [settled_after_every_event] shows that no timer is
    left overdue. *)
Fixpoint fire_due (fuel : nat) (target : nat) (m : Machine) : Machine :=
  match fuel with
  | O => m
  | S k =>
      match find (fun t => Nat.leb (due t) target) (timers m) with
      | Some t =>
          fire_due k target
            (timer_callback t
               (set_now (Nat.max (now m) (due t)) (remove_timer (tid t) m)))
      | None => m
      end
  end.

(** ** Events *)

Inductive Event : Type :=
| Edit (val : string)                        (* the editor calls onChange *)
| Loaded (c : string)                        (* useScratchpad yields data *)
| Switch (wsId : string) (c : option string) (* the workspaceId prop changes *)
| SaveSettled (ok : bool)                    (* a save succeeded or failed *)
| Elapse (ms : nat)                          (* time passes *)
| Unmount.

Definition elapse (ms : nat) (m : Machine) : Machine :=
  let target := now m + ms in
  set_now target (fire_due (S (length (timers m))) target m).

Definition unmount (m : Machine) : Machine :=
  let m := cleanup_unmount_save m in
  let m := cleanup_debounced_save m in
  set_committed None (set_mounted false m).

(** Time passes whether or not the component is there; every other
    event reaches a mounted component only. *)
Definition step (m : Machine) (e : Event) : Machine :=
  match e with
  | Elapse ms => elapse ms m
  | Edit val =>
      if mounted m then settle SETTLE_FUEL (onChange val m) else m
  | Loaded c =>
      if mounted m
      then settle SETTLE_FUEL (render (set_props (workspaceId m) (Some c) m))
      else m
  | Switch w c =>
      if mounted m then settle SETTLE_FUEL (render (set_props w c m)) else m
  | SaveSettled _ =>
      if mounted m then settle SETTLE_FUEL (render m) else m
  | Unmount => if mounted m then unmount m else m
  end.

Definition run (m : Machine) (es : list Event) : Machine :=
  fold_left step es m.

(** The first render: [useState("")], [useState(false)], and the refs
    initialised from them and from the prop. *)
Definition initial (wsId : string) (c : option string) : Machine :=
  mkMachine "" false "" false wsId wsId c true None None 0 0 [] 0 [].

Definition mount (wsId : string) (c : option string) : Machine :=
  settle SETTLE_FUEL (render (initial wsId c)).

End Scratchpad.

(** ** Reading the log *)

Definition saves (cs : list Call) : list (Site * string * string) :=
  flat_map (fun c => match c with
                     | Mutate s w v => [(s, w, v)]
                     | _ => []
                     end) cs.

Definition debounced_saves (cs : list Call) : list (string * string) :=
  flat_map (fun c => match c with
                     | Mutate AtDebounce w v => [(w, v)]
                     | _ => []
                     end) cs.

Definition arms (cs : list Call) : nat :=
  length (filter (fun c => match c with SetTimeout _ => true | _ => false end)
            cs).

Definition cancels (cs : list Call) : nat :=
  length (filter (fun c => match c with ClearTimeout _ => true | _ => false end)
            cs).

(** The timers that are live after the calls of a log: armed, and neither
    cleared nor fired since. *)
Fixpoint live_ids (cs : list Call) : list nat :=
  match cs with
  | [] => []
  | SetTimeout id :: cs' => id :: live_ids cs'
  | ClearTimeout id :: cs' =>
      filter (fun i => negb (Nat.eqb i id)) (live_ids cs')
  | TimerFired id :: cs' =>
      filter (fun i => negb (Nat.eqb i id)) (live_ids cs')
  | Mutate _ _ _ :: cs' => live_ids cs'
  end.

(** At no point of the log was more than one timer live. *)
Fixpoint always_single (cs : list Call) : Prop :=
  match cs with
  | [] => True
  | _ :: cs' => length (live_ids cs) <= 1 /\ always_single cs'
  end.

(** A hook that hands back the same object at every render. *)
Definition stable_mutation : nat -> nat := fun _ => 0.
(** A hook that builds a new object at every render. *)
Definition fresh_mutation : nat -> nat := fun n => n.

(** ** Invariant of the mounted component between two events *)

Record Inv (f : nat -> nat) (m : Machine) : Prop := mkInv {
  inv_mounted : mounted m = true;
  inv_committed :
    committed m =
      Some (mkRender (value m) (dirty m) (workspaceId m) (content m)
              (f (pred (renders m))));
  inv_valueRef : valueRef m = value m;
  inv_dirtyRef : dirtyRef m = dirty m;
  inv_workspaceIdRef : workspaceIdRef m = workspaceId m;
  inv_timer :
    if dirty m
    then exists id d,
        debounce_cleanup m = Some id
        /\ timers m = [mkTimer id d (workspaceId m) (value m)]
        /\ now m < d <= now m + DEBOUNCE_MS
    else debounce_cleanup m = None /\ timers m = [];
  inv_count :
    arms (calls m) = cancels (calls m) + (if dirty m then 1 else 0);
  inv_live : live_ids (calls m) = map tid (timers m);
  inv_single : always_single (calls m);
  inv_content :
    dirty m = false -> forall c, content m = Some c -> value m = c
}.

(** ** Reachable states *)

Inductive reachable (f : nat -> nat) : Machine -> Prop :=
| reach_mount w c : reachable f (mount f w c)
| reach_step m e : reachable f m -> reachable f (step f m e).

(** After unmount nothing is left to run. *)
Record Dead (m : Machine) : Prop := mkDead {
  dead_mounted : mounted m = false;
  dead_committed : committed m = None;
  dead_timers : timers m = [];
  dead_single : always_single (calls m)
}.

(** ** Bursts of edits *)

(** A burst of edits: a first edit, then pairs of a waiting time and the
    next edit. *)
Definition burst (v : string) (rest : list (nat * string)) : list Event :=
  Edit v :: flat_map (fun gv => [Elapse (fst gv); Edit (snd gv)]) rest.

(** Every waiting time is shorter than the quiet period. *)
Definition quick (rest : list (nat * string)) : Prop :=
  Forall (fun gv => fst gv < DEBOUNCE_MS) rest.

(** Every edit differs from the one before it. *)
Fixpoint changing (prev : string) (rest : list (nat * string)) : Prop :=
  match rest with
  | [] => True
  | gv :: rest' => snd gv <> prev /\ changing (snd gv) rest'
  end.

Definition last_content (v : string) (rest : list (nat * string)) : string :=
  last (map snd rest) v.

(** The component is dirty with content [v] and its timer was armed at the
    present instant. *)
Definition Armed (f : nat -> nat) (m : Machine) (v : string) : Prop :=
  Inv f m /\ dirty m = true /\ value m = v
  /\ exists id,
      timers m = [mkTimer id (now m + DEBOUNCE_MS) (workspaceId m) v].

(** ** Examples *)

(** The component of the examples: workspace "A", loaded content "hello",
    a save hook that returns the same object at every render. *)
Definition example_mount : Machine :=
  mount stable_mutation "A" (Some "hello").

(** The saves issued from the cleanup of the unmount effect (line 32). *)
Definition unmount_saves (cs : list Call) : list (string * string) :=
  flat_map (fun c => match c with
                     | Mutate AtUnmount w v => [(w, v)]
                     | _ => []
                     end) cs.

(** What the buffer holds once a load result has been taken over, or
    before any has arrived. *)
Definition seeded (c : option string) (otherwise : string) : string :=
  match c with
  | Some x => x
  | None => otherwise
  end.

(** The example component with a save hook that returns a new object at
    every render, after a first edit. *)
Definition example_fresh_dirty : Machine :=
  run fresh_mutation (mount fresh_mutation "A" (Some "hello")) [Edit "a"].


(** * Proofs *)

(** ** Symbolic execution

    The model is run call-by-value on a machine whose fields are
    variables: a function is unfolded only once the machine it receives
    is a record, and a test on strings or numbers is split as soon as it
    blocks. *)

Ltac is_record m :=
  lazymatch m with
  | mkMachine _ _ _ _ _ _ _ _ _ _ _ _ _ _ _ => idtac
  end.

Ltac eval_cond c :=
  eval cbv beta iota zeta delta
    [deps_valueRef deps_dirtyRef deps_workspaceIdRef deps_unmount_save
     deps_reset_dirty deps_sync_content deps_debounced_save
     deps_changed dep_changed existsb option_string_eqb negb orb andb
     Bool.eqb needs_render
     value dirty valueRef dirtyRef workspaceIdRef workspaceId content
     mounted committed debounce_cleanup renders now timers next_timer calls
     r_value r_dirty r_workspaceId r_content r_saveMutation
     tid due t_wsId t_content] in c.

Ltac eval_body t :=
  eval cbv beta iota zeta delta
    [onChange setValue setDirty effect_valueRef effect_dirtyRef
     effect_workspaceIdRef effect_unmount_save cleanup_unmount_save
     effect_reset_dirty
     effect_sync_content effect_debounced_save cleanup_debounced_save
     mutate setTimeout clearTimeout remove_timer
     set_value set_dirty set_valueRef set_dirtyRef
     set_workspaceIdRef set_props set_mounted set_committed
     set_debounce_cleanup set_renders set_now set_world
     negb orb andb Bool.eqb filter app find length
     value dirty valueRef dirtyRef workspaceIdRef workspaceId content
     mounted committed debounce_cleanup renders now timers next_timer calls
     r_value r_dirty r_workspaceId r_content r_saveMutation
     tid due t_wsId t_content] in t.

Ltac split_test :=
  match goal with
  | Hs : forall a b, ?f a = ?f b |- context [Nat.eqb (?f ?x) (?f ?y)] =>
      rewrite (proj2 (Nat.eqb_eq (f x) (f y)) (Hs x y))
  | |- context [String.eqb ?a ?a] => rewrite (String.eqb_refl a)
  | |- context [Nat.eqb ?a ?a] => rewrite (Nat.eqb_refl a)
  | H : ?a <> ?b |- context [String.eqb ?a ?b] =>
      rewrite (proj2 (String.eqb_neq a b) H)
  | H : ?b <> ?a |- context [String.eqb ?a ?b] =>
      rewrite (proj2 (String.eqb_neq a b) (not_eq_sym H))
  | H : ?a = ?b |- context [Nat.eqb ?a ?b] =>
      rewrite (proj2 (Nat.eqb_eq a b) H)
  | H : ?a <> ?b |- context [Nat.eqb ?a ?b] =>
      rewrite (proj2 (Nat.eqb_neq a b) H)
  | |- context [String.eqb ?a ?b] =>
      destruct (String.eqb_spec a b); [subst|]
  | |- context [Nat.eqb ?a ?b] =>
      destruct (Nat.eqb_spec a b)
  | |- context [Nat.leb ?a ?b] =>
      destruct (Nat.leb_spec a b)
  | |- context [match ?c with Some _ => _ | None => _ end] =>
      is_var c; destruct c
  end; cbv beta iota delta [negb orb andb].

Ltac exec_step :=
  match goal with
  | |- context [run_if ?c ?f ?m] =>
      is_record m;
      let c' := eval_cond c in
      lazymatch c' with
      | true => let t := eval_body (f m) in change (run_if c f m) with t
      | false => change (run_if c f m) with m
      | _ => progress change c with c'
      end
  | |- context [render ?f ?m] =>
      is_record m;
      let t := eval cbv beta iota zeta delta
                 [render commit set_renders
                  value dirty valueRef dirtyRef workspaceIdRef workspaceId
                  content mounted committed debounce_cleanup renders now
                  timers next_timer calls] in (render f m) in
      change (render f m) with t
  | |- context [set_committed ?r ?m] =>
      is_record m;
      let t := eval_body (set_committed r m) in
      change (set_committed r m) with t
  | |- context [set_mounted ?r ?m] =>
      is_record m;
      let t := eval_body (set_mounted r m) in
      change (set_mounted r m) with t
  | |- context [set_now ?r ?m] =>
      is_record m;
      let t := eval_body (set_now r m) in
      change (set_now r m) with t
  | |- context [set_props ?w ?c ?m] =>
      is_record m;
      let t := eval_body (set_props w c m) in
      change (set_props w c m) with t
  | |- context [remove_timer ?r ?m] =>
      is_record m;
      let t := eval_body (remove_timer r m) in
      change (remove_timer r m) with t
  | |- context [onChange ?r ?m] =>
      is_record m;
      let t := eval_body (onChange r m) in
      change (onChange r m) with t
  | |- context [cleanup_unmount_save ?m] =>
      is_record m;
      let t := eval_body (cleanup_unmount_save m) in
      change (cleanup_unmount_save m) with t
  | |- context [cleanup_debounced_save ?m] =>
      is_record m;
      let t := eval_body (cleanup_debounced_save m) in
      change (cleanup_debounced_save m) with t
  | |- context [settle ?f ?k ?m] =>
      is_record m;
      lazymatch eval cbv delta [SETTLE_FUEL] in k with
      | O => change (settle f k m) with m
      | S ?k' =>
          let c := eval_cond (needs_render m) in
          change (settle f k m)
            with (if c then settle f k' (render f m) else m)
      end
  | |- context [timer_callback ?f ?t ?m] =>
      is_record m;
      let m1 := eval_body (mutate AtDebounce (t_wsId t) (t_content t) m) in
      let b := eval_body (mounted m1) in
      let m2 := eval_body (setDirty false m1) in
      change (timer_callback f t m)
        with (if b then settle f SETTLE_FUEL m2 else m1)
  | |- context [fire_due ?f ?k ?tg ?m] =>
      is_record m;
      lazymatch eval_body k with
      | O => change (fire_due f k tg m) with m
      | S ?k' =>
          let found :=
            eval_body (find (fun t => Nat.leb (due t) tg) (timers m)) in
          change (fire_due f k tg m)
            with (match found with
                  | Some t =>
                      fire_due f k' tg
                        (timer_callback f t
                           (set_now (Nat.max (now m) (due t))
                              (remove_timer (tid t) m)))
                  | None => m
                  end)
      end
  end; cbv beta iota.

Ltac exec :=
  cbv beta iota zeta delta [run fold_left step elapse unmount mount initial
                              mounted now timers negb length];
  repeat first [split_test | exec_step].

Ltac inv_intro m H :=
  let Hm := fresh "Hm" in let Hc := fresh "Hc" in
  let Hv := fresh "Hv" in let Hd := fresh "Hd" in let Hw := fresh "Hw" in
  let Ht := fresh "Ht" in let Hn := fresh "Hn" in let Hl := fresh "Hl" in
  let Hlive := fresh "Hlive" in let Hsingle := fresh "Hsingle" in
  destruct H as [Hm Hc Hv Hd Hw Ht Hn Hlive Hsingle Hl];
  destruct m as [val dty vr dr wr ws ct mt cm dc rn nw ts nt cs];
  cbn in Hm, Hc, Hv, Hd, Hw, Ht, Hn, Hlive, Hsingle, Hl; subst;
  destruct dty;
  [ let id := fresh "id" in let d := fresh "d" in
    let Hdue := fresh "Hdue" in
    destruct Ht as (id & d & -> & -> & Hdue)
  | destruct Ht as (-> & ->);
    specialize (Hl eq_refl) ].

Ltac inv_done :=
  constructor; cbn in *;
  repeat match goal with
         | H : live_ids _ = _ |- _ => rewrite H; clear H; cbn
         | |- context [Nat.eqb ?a ?a] => rewrite (Nat.eqb_refl a); cbn
         | |- exists _, _ => eexists
         | |- _ /\ _ => split
         end;
  try reflexivity; try congruence; try (unfold DEBOUNCE_MS in *; lia);
  try assumption;
  try solve [intros; discriminate | intros; eauto
            | intros ? ? [= <-]; eauto ].

Lemma mount_Inv f w c : Inv f (mount f w c).
Proof. destruct c; exec; inv_done. Qed.

Lemma edit_Inv f m v : Inv f m -> Inv f (step f m (Edit v)).
Proof. intros H. inv_intro m H; exec; inv_done. Qed.

Lemma loaded_Inv f m c : Inv f m -> Inv f (step f m (Loaded c)).
Proof. intros H. inv_intro m H; exec; inv_done. Qed.

Lemma switch_Inv f m w c : Inv f m -> Inv f (step f m (Switch w c)).
Proof. intros H. inv_intro m H; destruct c; exec; inv_done. Qed.

Lemma save_settled_Inv f m ok : Inv f m -> Inv f (step f m (SaveSettled ok)).
Proof. intros H. inv_intro m H; exec; inv_done. Qed.

Lemma elapse_Inv f m ms : Inv f m -> Inv f (step f m (Elapse ms)).
Proof. intros H. inv_intro m H; exec; inv_done. Qed.

(** ** Unmounted machines and reachability *)

Ltac dead_intro m H :=
  let Hm := fresh "Hm" in let Hc := fresh "Hc" in
  let Ht := fresh "Ht" in let Hs := fresh "Hs" in
  destruct H as [Hm Hc Ht Hs];
  destruct m as [val dty vr dr wr ws ct mt cm dc rn nw ts nt cs];
  cbn in Hm, Hc, Ht, Hs; subst.

Lemma unmount_Dead f m : Inv f m -> Dead (step f m Unmount).
Proof. intros H. inv_intro m H; exec; inv_done. Qed.

Lemma step_Dead f m e : Dead m -> Dead (step f m e).
Proof. intros H. dead_intro m H. destruct e; exec; inv_done. Qed.

Lemma step_Inv f m e : Inv f m -> Inv f (step f m e) \/ Dead (step f m e).
Proof.
  intros H. destruct e.
  - left. now apply edit_Inv.
  - left. now apply loaded_Inv.
  - left. now apply switch_Inv.
  - left. now apply save_settled_Inv.
  - left. now apply elapse_Inv.
  - right. now apply unmount_Dead.
Qed.

Lemma reachable_cases f m : reachable f m -> Inv f m \/ Dead m.
Proof.
  induction 1 as [w c | m e _ [IH | IH]].
  - left. apply mount_Inv.
  - now apply step_Inv.
  - right. now apply step_Dead.
Qed.

Lemma reachable_Inv f m : reachable f m -> mounted m = true -> Inv f m.
Proof.
  intros H Hm. destruct (reachable_cases f m H) as [HI | HD]; [exact HI|].
  destruct HD as [Hd _ _ _]. congruence.
Qed.

(** Both loops of the model have run to their end when an event has been
    handled: the last commit left no state cell changed, and every timer
    still on the list is due in the future. *)
Lemma settled_after_every_event f m :
  reachable f m ->
  needs_render m = false
  /\ find (fun t => Nat.leb (due t) (now m)) (timers m) = None.
Proof.
  intros Hr. destruct (reachable_cases f m Hr) as [H | H].
  - inv_intro m H; cbn; rewrite ?String.eqb_refl; split; try reflexivity.
    destruct (Nat.leb_spec d nw); [lia | reflexivity].
  - dead_intro m H. split; reflexivity.
Qed.

Lemma reachable_run f m es : reachable f m -> reachable f (run f m es).
Proof.
  revert m. induction es as [| e es IH]; intros m H; cbn; [exact H|].
  apply IH. now constructor.
Qed.

Ltac from_reachable m Hr Hm :=
  let H := fresh "H" in
  pose proof (reachable_Inv _ _ Hr Hm) as H; clear Hr Hm;
  inv_intro m H; cbn in * |-; try discriminate.

Ltac done_fields :=
  cbn; repeat split; intros; cbn;
  try reflexivity; try congruence; try (unfold DEBOUNCE_MS in *; lia);
  try solve [eauto | exfalso; unfold DEBOUNCE_MS in *; lia].

(** ** The status line *)

(** C9. The footer is a function of (save pending, dirty) alone: "Saving..."
    whenever a save is pending, whatever the dirty flag; otherwise "Unsaved"
    when dirty; otherwise "Saved".  The three labels are distinct, and the
    editor view shows exactly this label next to the buffer. *)
Theorem status_tri_state :
  (forall d, status true d = "Saving...")
  /\ status false true = "Unsaved"
  /\ status false false = "Saved"
  /\ status true true <> status false true
  /\ status false true <> status false false
  /\ status true false <> status false false
  /\ (forall isPending m,
        view false None isPending m
        = EditorView (value m) (status isPending (dirty m))).
Proof.
  repeat split; try reflexivity; try (cbn; discriminate).
Qed.

(** ** Flushing a clean buffer *)

(** C7. In a state whose dirty flag is false neither flush path does
    anything: no timer is pending, so time passing only moves the clock;
    the debounce effect run on a clean render returns the machine as it
    is; the unmount cleanup returns the machine as it is; and unmounting
    adds nothing to the log. *)
Theorem flush_idempotent f m :
  reachable f m -> mounted m = true -> dirty m = false ->
  (forall ms, step f m (Elapse ms) = set_now (now m + ms) m)
  /\ (forall r, r_dirty r = false -> effect_debounced_save r m = m)
  /\ cleanup_unmount_save m = m
  /\ calls (step f m Unmount) = calls m.
Proof.
  intros Hr Hm Hd. from_reachable m Hr Hm.
  split; [|split; [|split]]; intros.
  - exec. reflexivity.
  - unfold effect_debounced_save. rewrite H. reflexivity.
  - reflexivity.
  - exec. reflexivity.
Qed.

(** ** Loaded content *)

(** C4, as amended.  When the load hook yields content [c] the content is
    recorded in any case.  If the dirty flag is false the buffer becomes
    [c].  If it is true the buffer and the flag stay as they are for the
    time being: an edit followed by the arrival of the load leaves the
    edit in the buffer.  The content is not dropped, though: as soon as
    the debounced save has cleared the flag, the sync effect runs again
    and [c] replaces the buffer. *)
Theorem load_applies_once_clean f m c :
  reachable f m -> mounted m = true ->
  content (step f m (Loaded c)) = Some c
  /\ (dirty m = false ->
      value (step f m (Loaded c)) = c
      /\ dirty (step f m (Loaded c)) = false)
  /\ (dirty m = true ->
      value (step f m (Loaded c)) = value m
      /\ dirty (step f m (Loaded c)) = true
      /\ forall ms, DEBOUNCE_MS <= ms ->
           value (run f m [Loaded c; Elapse ms]) = c)
  /\ (forall v, value (run f m [Edit v; Loaded c]) = v)
  /\ (forall v ms, DEBOUNCE_MS <= ms ->
        value (run f m [Edit v; Loaded c; Elapse ms]) = c).
Proof.
  intros Hr Hm. from_reachable m Hr Hm.
  all: split; [|split; [intros ?; try discriminate
                       |split; [intros ?; try discriminate
                               |split; [intros ?|intros ? ? ?]]]].
  all: try (split; [|try (split; [|intros ? ?])]).
  all: exec; done_fields.
Qed.

(** ** The debounced flush *)

(** C5. Once the quiet period has run out on a dirty buffer the timer
    callback issues the save and the dirty flag is false right away: no
    completion of the save has been processed at that point.  When the
    save later settles, with success or with failure, the flag stays
    false, no further save is issued and no timer is armed. *)
Theorem flush_clears_dirty_on_issue f m ms :
  reachable f m -> mounted m = true -> dirty m = true ->
  DEBOUNCE_MS <= ms ->
  debounced_saves (calls (step f m (Elapse ms)))
  = (workspaceId m, value m) :: debounced_saves (calls m)
  /\ dirty (step f m (Elapse ms)) = false
  /\ (forall ok,
        dirty (run f m [Elapse ms; SaveSettled ok]) = false
        /\ calls (run f m [Elapse ms; SaveSettled ok])
           = calls (step f m (Elapse ms))
        /\ timers (run f m [Elapse ms; SaveSettled ok]) = []).
Proof.
  intros Hr Hm Hd Hms. from_reachable m Hr Hm.
  split; [|split; [|intros ok; split; [|split]]]; exec; done_fields.
Qed.

(** C10. After the debounced save has fired the dirty flag is false, and
    whatever content the load hook yields next, stale or not, becomes the
    buffer: nothing but the flag is consulted. *)
Theorem load_after_flush_overwrites f m ms c :
  reachable f m -> mounted m = true -> dirty m = true ->
  DEBOUNCE_MS <= ms ->
  debounced_saves (calls (step f m (Elapse ms)))
  = (workspaceId m, value m) :: debounced_saves (calls m)
  /\ dirty (step f m (Elapse ms)) = false
  /\ value (run f m [Elapse ms; Loaded c]) = c.
Proof.
  intros Hr Hm Hd Hms. from_reachable m Hr Hm.
  split; [|split]; exec; done_fields.
Qed.

(** ** Teardown *)

(** C2. Unmounting a dirty component issues exactly one save, from the
    cleanup, with the current workspace identifier and buffer as read
    through the refs; the pending timer, which had not fired, is cleared.
    Unmounting right after an edit saves that edit. *)
Theorem teardown_flushes_once f m :
  reachable f m -> mounted m = true ->
  (dirty m = true ->
   saves (calls (step f m Unmount))
   = (AtUnmount, workspaceId m, value m) :: saves (calls m)
   /\ (exists t, timers m = [t] /\ now m < due t)
   /\ timers (step f m Unmount) = []
   /\ (workspaceIdRef m, valueRef m) = (workspaceId m, value m))
  /\ (forall v,
        saves (calls (run f m [Edit v; Unmount]))
        = (AtUnmount, workspaceId m, v)
            :: saves (calls (step f m (Edit v)))).
Proof.
  intros Hr Hm. from_reachable m Hr Hm.
  all: split; [intros Hd; first [discriminate | split; [|split; [|split]]]
              | intros v ]; exec; done_fields.
  eexists; split; [reflexivity|cbn; lia].
Qed.

(** ** One timer at a time *)

(** C6. At no point of any run is more than one timer live: replaying the
    log of [setTimeout], [clearTimeout] and timer firings never shows two,
    and the runtime's list never holds two.  After an edit the number of
    [clearTimeout] calls made so far is the number of [setTimeout] calls
    minus one. *)
Theorem single_live_timer f m :
  reachable f m ->
  always_single (calls m)
  /\ length (timers m) <= 1
  /\ (forall v,
        mounted m = true ->
        1 <= arms (calls (step f m (Edit v)))
        /\ cancels (calls (step f m (Edit v)))
           = arms (calls (step f m (Edit v))) - 1).
Proof.
  intros Hr. split; [|split].
  - destruct (reachable_cases f m Hr) as [H | H]; apply H.
  - destruct (reachable_cases f m Hr) as [H | H].
    + destruct H as [_ _ _ _ _ Ht _ _ _ _].
      destruct (dirty m).
      * destruct Ht as (id & d & _ & -> & _). cbn. lia.
      * destruct Ht as (_ & ->). cbn. lia.
    + destruct H as [_ _ -> _]. cbn. lia.
  - intros v Hm.
    pose proof (edit_Inv f m v (reachable_Inv f m Hr Hm)) as H.
    assert (Hd : dirty (step f m (Edit v)) = true).
    { clear H. from_reachable m Hr Hm; exec; reflexivity. }
    destruct H as [_ _ _ _ _ _ Hn _ _ _]. rewrite Hd in Hn. lia.
Qed.

(** ** Edits *)

Lemma edit_arms f m v :
  Inv f m -> dirty m = false \/ v <> value m ->
  Armed f (step f m (Edit v)) v
  /\ workspaceId (step f m (Edit v)) = workspaceId m
  /\ debounced_saves (calls (step f m (Edit v))) = debounced_saves (calls m)
  /\ timers (step f m (Edit v))
     = [mkTimer (next_timer m) (now m + DEBOUNCE_MS) (workspaceId m) v]
  /\ arms (calls (step f m (Edit v))) = S (arms (calls m)).
Proof.
  intros H Hc. split; [split; [now apply edit_Inv|]|].
  all: inv_intro m H; cbn in Hc; destruct Hc as [Hc|Hc]; try discriminate.
  all: try (split; [|split]); try (split; [|split; [|split]]).
  all: exec; try congruence; try reflexivity.
  all: eexists; reflexivity.
Qed.

Lemma short_wait f m v g :
  Armed f m v -> g < DEBOUNCE_MS ->
  Inv f (step f m (Elapse g))
  /\ dirty (step f m (Elapse g)) = true
  /\ value (step f m (Elapse g)) = v
  /\ workspaceId (step f m (Elapse g)) = workspaceId m
  /\ debounced_saves (calls (step f m (Elapse g)))
     = debounced_saves (calls m).
Proof.
  intros (H & HAd & HAv & id0 & HAt) Hg. split; [now apply elapse_Inv|].
  inv_intro m H; cbn in * |-; try discriminate.
  injection HAt as -> ->. subst.
  split; [|split; [|split]]; exec; try reflexivity;
    exfalso; unfold DEBOUNCE_MS in *; lia.
Qed.

Lemma debounce_fires f m ms :
  Inv f m -> dirty m = true -> DEBOUNCE_MS <= ms ->
  debounced_saves (calls (step f m (Elapse ms)))
  = (workspaceId m, value m) :: debounced_saves (calls m).
Proof.
  intros H Hd Hms. inv_intro m H; cbn in Hd; try discriminate.
  exec; done_fields.
Qed.

Lemma last_cons (A : Type) (a d : A) (l : list A) :
  last (a :: l) d = last l a.
Proof.
  revert a d. induction l as [| b l IH]; intros a d; [reflexivity|].
  change (last (a :: b :: l) d) with (last (b :: l) d).
  now rewrite !IH.
Qed.

Lemma run_cons f m e es : run f m (e :: es) = run f (step f m e) es.
Proof. reflexivity. Qed.

Lemma burst_rest f rest :
  forall m v,
    Armed f m v -> quick rest -> changing v rest ->
    Armed f
      (run f m (flat_map (fun gv => [Elapse (fst gv); Edit (snd gv)]) rest))
      (last_content v rest)
    /\ workspaceId
         (run f m
            (flat_map (fun gv => [Elapse (fst gv); Edit (snd gv)]) rest))
       = workspaceId m
    /\ debounced_saves
         (calls
            (run f m
               (flat_map (fun gv => [Elapse (fst gv); Edit (snd gv)]) rest)))
       = debounced_saves (calls m).
Proof.
  induction rest as [| [g v'] rest IH]; intros m v Ha Hq Hc.
  - cbn. auto.
  - inversion Hq as [| x l Hg Hq']; subst. cbn in Hg.
    destruct Hc as [Hne Hc]. cbn [snd] in Hne, Hc.
    destruct (short_wait f m v g Ha Hg) as (HI & Hd & Hv & Hw & Hs).
    destruct (edit_arms f (step f m (Elapse g)) v' HI) as (Ha' & Hw' & Hs' & _).
    { right. congruence. }
    destruct (IH _ _ Ha' Hq' Hc) as (Ha'' & Hw'' & Hs'').
    unfold last_content. cbn [map snd]. rewrite last_cons.
    cbn [flat_map fst snd app]. rewrite !run_cons.
    split; [exact Ha''|]. split; congruence.
Qed.

Lemma run_app f m es es' : run f m (es ++ es') = run f (run f m es) es'.
Proof. unfold run. apply fold_left_app. Qed.

(** C8, as amended.  For any string [v], [onChange v] leaves [v] in the
    buffer and the dirty flag true, and afterwards one timer is pending
    that will save [v].  The timer is a new one, due a full quiet period
    later, exactly when the edit changed a state cell (the buffer was
    clean, or [v] differs from the buffer); an edit that repeats the
    buffer of an already dirty component changes nothing at all, the
    pending timer and its deadline included. *)
Theorem onChange_effect f m v :
  reachable f m -> mounted m = true ->
  value (step f m (Edit v)) = v
  /\ dirty (step f m (Edit v)) = true
  /\ (exists id d,
        timers (step f m (Edit v)) = [mkTimer id d (workspaceId m) v]
        /\ now m < d <= now m + DEBOUNCE_MS)
  /\ (dirty m = false \/ v <> value m ->
      timers (step f m (Edit v))
      = [mkTimer (next_timer m) (now m + DEBOUNCE_MS) (workspaceId m) v]
      /\ arms (calls (step f m (Edit v))) = S (arms (calls m)))
  /\ (dirty m = true -> v = value m -> step f m (Edit v) = m).
Proof.
  intros Hr Hm. pose proof (reachable_Inv f m Hr Hm) as HI.
  split; [|split; [|split; [|split]]].
  4: { intros Hc. destruct (edit_arms f m v HI Hc) as (_ & _ & _ & Ht & Ha).
       now split. }
  all: clear HI; from_reachable m Hr Hm; intros; subst; exec;
    try reflexivity; try discriminate.
  all: eexists; eexists; split; [reflexivity|cbn; unfold DEBOUNCE_MS in *; lia].
Qed.

(** C3, as amended.  Take a mounted component and a burst of edits in
    which every edit comes less than the quiet period after the one
    before it and changes the buffer (the first one may also find the
    buffer clean).  While the burst lasts the timer callback issues no
    save; once a quiet period has passed after the last edit it has issued
    exactly one, for the current workspace, with the content of the last
    edit. *)
Theorem debounce_coalesces f m v rest ms :
  reachable f m -> mounted m = true ->
  dirty m = false \/ v <> value m ->
  quick rest -> changing v rest -> DEBOUNCE_MS <= ms ->
  debounced_saves (calls (run f m (burst v rest)))
  = debounced_saves (calls m)
  /\ debounced_saves (calls (run f m (burst v rest ++ [Elapse ms])))
     = (workspaceId m, last_content v rest) :: debounced_saves (calls m).
Proof.
  intros Hr Hm Hfirst Hq Hc Hms.
  pose proof (reachable_Inv f m Hr Hm) as HI.
  destruct (edit_arms f m v HI Hfirst) as (Ha & Hw & Hs & _).
  destruct (burst_rest f rest _ _ Ha Hq Hc) as (Ha' & Hw' & Hs').
  unfold burst. rewrite run_app, !run_cons.
  split; [congruence|].
  destruct Ha' as (HI' & Hd' & Hv' & _).
  change (run f ?x []) with x.
  rewrite (debounce_fires f _ ms HI' Hd' Hms).
  congruence.
Qed.

(** ** Counterexamples and the document switch *)

(** C8, counterexample.  The buffer is "a", dirty, and its timer is due at
    1000.  At 900 the editor reports "a" again: the machine is unchanged,
    no [setTimeout] or [clearTimeout] call is made, and the timer is still
    due at 1000, not at 1900. *)
Lemma edit_same_content_does_not_rearm :
  dirty (run stable_mutation example_mount [Edit "a"; Elapse 900]) = true
  /\ now (run stable_mutation example_mount [Edit "a"; Elapse 900]) = 900
  /\ run stable_mutation example_mount [Edit "a"; Elapse 900; Edit "a"]
     = run stable_mutation example_mount [Edit "a"; Elapse 900]
  /\ timers (run stable_mutation example_mount [Edit "a"; Elapse 900; Edit "a"])
     = [mkTimer 0 1000 "A" "a"]
  /\ rev (calls
            (run stable_mutation example_mount
               [Edit "a"; Elapse 900; Edit "a"]))
     = [SetTimeout 0].
Proof. vm_compute. repeat split. Qed.

(** C3, counterexample.  Three edits, each 900 ms after the one before,
    all with the content "a": the second does not restart the countdown,
    the timer fires at 1000 between the second and the third, and the
    third arms a new timer.  One debounced save has been issued before the
    burst is over, and two once it has settled. *)
Lemma equal_edits_flush_twice :
  quick [(900, "a"); (900, "a")]
  /\ debounced_saves
       (calls (run stable_mutation example_mount
                 (burst "a" [(900, "a"); (900, "a")])))
     = [("A", "a")]
  /\ debounced_saves
       (calls (run stable_mutation example_mount
                 (burst "a" [(900, "a"); (900, "a")] ++ [Elapse 1000])))
     = [("A", "a"); ("A", "a")].
Proof.
  split; [|split]; [|vm_compute; reflexivity..].
  repeat constructor; cbn; unfold DEBOUNCE_MS; lia.
Qed.

(** C4, counterexample.  "abc" is typed, then the load hook yields
    "stale" while the component is dirty: the buffer is still "abc", but
    the content is kept, and when the debounced save has gone out the
    buffer is "stale".  The same happens with a save hook that returns a
    new object at every render. *)
Lemma load_while_dirty_overwrites_later :
  dirty (run stable_mutation example_mount [Edit "abc"]) = true
  /\ value (run stable_mutation example_mount [Edit "abc"; Loaded "stale"])
     = "abc"
  /\ content (run stable_mutation example_mount [Edit "abc"; Loaded "stale"])
     = Some "stale"
  /\ value (run stable_mutation example_mount
              [Edit "abc"; Loaded "stale"; Elapse 1000])
     = "stale"
  /\ value (run fresh_mutation (mount fresh_mutation "A" (Some "hello"))
              [Edit "abc"; Loaded "stale"; Elapse 1000])
     = "stale".
Proof. vm_compute. repeat split. Qed.

(** With a save hook that returns the same object at every render:
    workspace "A" is edited to "abc" and, before the quiet period is over,
    the [workspaceId] prop becomes "B".  The commit clears the pending
    timer, arms one that closes over the new identifier and the old
    buffer, and resets the dirty flag; the next commit clears that timer
    too.  The cleanup of the unmount effect does not run, and the log
    holds no [mutate] call. *)
Theorem switch_drops_pending_edit :
  dirty (run stable_mutation example_mount [Edit "abc"]) = true
  /\ saves (calls (run stable_mutation example_mount
                     [Edit "abc"; Switch "B" None])) = []
  /\ rev (calls (run stable_mutation example_mount
                   [Edit "abc"; Switch "B" None]))
     = [SetTimeout 0; ClearTimeout 0; SetTimeout 1; ClearTimeout 1]
  /\ dirty (run stable_mutation example_mount
              [Edit "abc"; Switch "B" None]) = false
  /\ timers (run stable_mutation example_mount
               [Edit "abc"; Switch "B" None]) = []
  /\ saves (calls (run stable_mutation example_mount
                     [Edit "abc"; Switch "B" None; Elapse 5000; Unmount]))
     = [].
Proof. vm_compute. repeat split. Qed.

(** What the example shows holds in general: with a save hook that keeps
    returning the same object, a change of [workspaceId] never issues a
    save, whatever the state of the buffer. *)
Lemma switch_issues_no_save f m w c :
  (forall a b, f a = f b) ->
  reachable f m -> mounted m = true ->
  w <> workspaceId m ->
  saves (calls (step f m (Switch w c))) = saves (calls m)
  /\ dirty (step f m (Switch w c)) = false
  /\ timers (step f m (Switch w c)) = [].
Proof.
  intros Hs Hr Hm Hw. from_reachable m Hr Hm.
  all: destruct c; (split; [|split]); exec; cbn; congruence.
Qed.

(** With a save hook that builds a new object at every render the cleanup
    of the unmount effect runs at every commit.  The switch then does save
    "abc" for "A", and at the next commit saves "abc" for "B" as well. *)
Remark switch_with_fresh_mutation :
  saves (rev (calls (run fresh_mutation (mount fresh_mutation "A" (Some "hello"))
                       [Edit "abc"; Switch "B" None])))
  = [(AtUnmount, "A", "abc"); (AtUnmount, "B", "abc")].
Proof. vm_compute. reflexivity. Qed.

(** ** The theorems at concrete inputs *)

(** Every run of the example component is reachable. *)
Lemma reachable_example es :
  reachable stable_mutation (run stable_mutation example_mount es).
Proof. apply reachable_run. apply reach_mount. Qed.

(** [teardown_flushes_once] after one edit: unmounting saves "abc" for
    "A", once. *)
Lemma teardown_flushes_once_witness :
  saves (calls (run stable_mutation example_mount [Edit "abc"; Unmount]))
  = [(AtUnmount, "A", "abc")].
Proof.
  destruct (teardown_flushes_once stable_mutation
              (run stable_mutation example_mount [Edit "abc"]))
    as [H _].
  - apply reachable_example.
  - vm_compute. reflexivity.
  - destruct H as [H _]; [vm_compute; reflexivity|]. exact H.
Defined.

(** [debounce_coalesces] on the burst "a", "ab", "abc" typed 900 ms
    apart: one debounced save, of "abc". *)
Lemma debounce_coalesces_witness :
  debounced_saves
    (calls (run stable_mutation example_mount
              (burst "a" [(900, "ab"); (900, "abc")] ++ [Elapse 1000])))
  = [("A", "abc")].
Proof.
  destruct (debounce_coalesces stable_mutation example_mount "a"
              [(900, "ab"); (900, "abc")] 1000) as [_ H].
  - apply (reachable_example []).
  - vm_compute. reflexivity.
  - left. vm_compute. reflexivity.
  - repeat constructor; cbn; unfold DEBOUNCE_MS; lia.
  - cbn. repeat split; discriminate.
  - unfold DEBOUNCE_MS. lia.
  - exact H.
Defined.

(** [load_applies_once_clean] for a load that arrives right after an edit,
    and one quiet period later. *)
Lemma load_applies_once_clean_witness :
  value (run stable_mutation example_mount [Edit "abc"; Loaded "stale"])
  = "abc"
  /\ value (run stable_mutation example_mount
              [Edit "abc"; Loaded "stale"; Elapse 1000])
     = "stale".
Proof.
  destruct (load_applies_once_clean stable_mutation example_mount "stale")
    as (_ & _ & _ & H1 & H2).
  - apply (reachable_example []).
  - vm_compute. reflexivity.
  - split; [exact (H1 "abc")|]. apply (H2 "abc" 1000).
    unfold DEBOUNCE_MS. lia.
Defined.

(** [flush_clears_dirty_on_issue] one quiet period after an edit, and
    after that save has failed. *)
Lemma flush_clears_dirty_on_issue_witness :
  dirty (run stable_mutation example_mount [Edit "abc"; Elapse 1000]) = false
  /\ dirty (run stable_mutation example_mount
              [Edit "abc"; Elapse 1000; SaveSettled false]) = false.
Proof.
  destruct (flush_clears_dirty_on_issue stable_mutation
              (run stable_mutation example_mount [Edit "abc"]) 1000)
    as (_ & H1 & H2).
  - apply reachable_example.
  - vm_compute. reflexivity.
  - vm_compute. reflexivity.
  - unfold DEBOUNCE_MS. lia.
  - split; [exact H1|]. exact (proj1 (H2 false)).
Defined.

(** [single_live_timer] after three edits typed 10 ms apart. *)
Lemma single_live_timer_witness :
  cancels (calls (run stable_mutation example_mount
                    [Edit "a"; Elapse 10; Edit "ab"; Elapse 10; Edit "abc"]))
  = arms (calls (run stable_mutation example_mount
                   [Edit "a"; Elapse 10; Edit "ab"; Elapse 10; Edit "abc"]))
    - 1.
Proof.
  destruct (single_live_timer stable_mutation
              (run stable_mutation example_mount
                 [Edit "a"; Elapse 10; Edit "ab"; Elapse 10]))
    as (_ & _ & H).
  - apply reachable_example.
  - destruct (H "abc") as [_ H']; [vm_compute; reflexivity|]. exact H'.
Defined.

(** [flush_idempotent] on the freshly mounted, clean component. *)
Lemma flush_idempotent_witness :
  calls (step stable_mutation example_mount Unmount) = calls example_mount.
Proof.
  destruct (flush_idempotent stable_mutation example_mount)
    as (_ & _ & _ & H).
  - apply (reachable_example []).
  - vm_compute. reflexivity.
  - vm_compute. reflexivity.
  - exact H.
Defined.

(** [onChange_effect] for the first edit of the mounted component. *)
Lemma onChange_effect_witness :
  value (step stable_mutation example_mount (Edit "abc")) = "abc"
  /\ dirty (step stable_mutation example_mount (Edit "abc")) = true
  /\ timers (step stable_mutation example_mount (Edit "abc"))
     = [mkTimer 0 1000 "A" "abc"].
Proof.
  destruct (onChange_effect stable_mutation example_mount "abc")
    as (H1 & H2 & _ & H4 & _).
  - apply (reachable_example []).
  - vm_compute. reflexivity.
  - split; [exact H1|]. split; [exact H2|].
    destruct H4 as [H4 _]; [left; vm_compute; reflexivity|]. exact H4.
Defined.

(** [load_after_flush_overwrites]: "abc" is saved, then the stale
    "hello" arrives and replaces it in the buffer. *)
Lemma load_after_flush_overwrites_witness :
  value (run stable_mutation example_mount
           [Edit "abc"; Elapse 1000; Loaded "hello"]) = "hello".
Proof.
  destruct (load_after_flush_overwrites stable_mutation
              (run stable_mutation example_mount [Edit "abc"]) 1000 "hello")
    as (_ & _ & H).
  - apply reachable_example.
  - vm_compute. reflexivity.
  - vm_compute. reflexivity.
  - unfold DEBOUNCE_MS. lia.
  - exact H.
Defined.

(** * Further properties of the component *)

(** ** Mounting *)

(** X1. Mounting calls nothing: no save, no timer.  The component starts
    clean, with the loaded content in the buffer, or the empty string when
    nothing is loaded yet, and the footer reads "Saved". *)
Theorem mount_is_clean f w c :
  calls (mount f w c) = []
  /\ timers (mount f w c) = []
  /\ dirty (mount f w c) = false
  /\ value (mount f w c) = seeded c ""
  /\ workspaceId (mount f w c) = w
  /\ view false None false (mount f w c) = EditorView (seeded c "") "Saved".
Proof.
  destruct c; repeat (split; [exec; reflexivity|]); exec; reflexivity.
Qed.

(** ** Invariants between events *)

(** X2. Whenever an event has been handled the three refs hold the current
    buffer, dirty flag and workspace identifier. *)
Theorem refs_track_state f m :
  reachable f m -> mounted m = true ->
  valueRef m = value m
  /\ dirtyRef m = dirty m
  /\ workspaceIdRef m = workspaceId m.
Proof.
  intros Hr Hm. destruct (reachable_Inv f m Hr Hm). auto.
Qed.

(** X3. A clean component with loaded content shows exactly that content. *)
Theorem clean_buffer_is_loaded_content f m c :
  reachable f m -> mounted m = true ->
  dirty m = false -> content m = Some c ->
  value m = c.
Proof.
  intros Hr Hm Hd Hc. destruct (reachable_Inv f m Hr Hm). auto.
Qed.

(** X4. A dirty component has exactly one pending timer; it will save the
    current buffer under the current workspace identifier and is due
    within the quiet period.  A clean component has no timer. *)
Theorem dirty_iff_one_pending_timer f m :
  reachable f m -> mounted m = true ->
  (dirty m = true ->
   exists id d,
     timers m = [mkTimer id d (workspaceId m) (value m)]
     /\ debounce_cleanup m = Some id
     /\ now m < d <= now m + DEBOUNCE_MS)
  /\ (dirty m = false -> timers m = [] /\ debounce_cleanup m = None).
Proof.
  intros Hr Hm. destruct (reachable_Inv f m Hr Hm) as [_ _ _ _ _ Ht _ _ _ _].
  destruct (dirty m); split; intros Hd; try discriminate.
  - destruct Ht as (id & d & Hc & Htm & Hdue). now exists id, d.
  - destruct Ht. now split.
Qed.

(** ** What is saved, and when *)

(** X5. No event makes a clean component issue a save. *)
Theorem clean_component_never_saves f m e :
  reachable f m -> mounted m = true -> dirty m = false ->
  saves (calls (step f m e)) = saves (calls m).
Proof.
  intros Hr Hm Hd. from_reachable m Hr Hm.
  destruct e as [v | c | w c | ok | ms |]; try destruct c;
    exec; cbn; reflexivity.
Qed.

Ltac pick_new :=
  first
    [ exists []; split; [reflexivity | constructor]
    | eexists [_]; split; [reflexivity | repeat constructor]
    | eexists [_; _]; split; [reflexivity | repeat constructor]
    | eexists [_; _; _]; split; [reflexivity | repeat constructor] ].

(** X6. Whatever event arrives, every save issued while it is handled
    carries the buffer as it was when the event arrived. *)
Theorem saves_carry_the_buffer f m e :
  reachable f m ->
  exists new,
    saves (calls (step f m e)) = (new ++ saves (calls m))%list
    /\ Forall (fun s => snd s = value m) new.
Proof.
  intros Hr. destruct (reachable_cases f m Hr) as [H | H].
  - inv_intro m H;
      (destruct e as [v | c | w c | ok | ms |]; try destruct c);
      exec; cbn; pick_new.
  - dead_intro m H.
    destruct e as [v | c | w c | ok | ms |]; exec; cbn; pick_new.
Qed.

(** X7. Only an edit makes a clean component dirty. *)
Theorem only_edits_make_dirty f m e :
  reachable f m -> mounted m = true -> dirty m = false ->
  (forall v, e <> Edit v) ->
  dirty (step f m e) = false.
Proof.
  intros Hr Hm Hd He. from_reachable m Hr Hm.
  destruct e as [v | c | w c | ok | ms |]; try destruct c;
    try (exfalso; eapply He; reflexivity);
    exec; reflexivity.
Qed.

(** ** Switching to another workspace *)

(** X8. When the [workspaceId] prop changes to another identifier the
    component ends clean and without a timer, and the timer callback has
    saved nothing.  The buffer is the content loaded for the new
    identifier; while that is still undefined the buffer keeps the text
    of the workspace that was left. *)
Theorem switch_adopts_new_workspace f m w c :
  reachable f m -> mounted m = true ->
  w <> workspaceId m ->
  workspaceId (step f m (Switch w c)) = w
  /\ dirty (step f m (Switch w c)) = false
  /\ timers (step f m (Switch w c)) = []
  /\ value (step f m (Switch w c)) = seeded c (value m)
  /\ debounced_saves (calls (step f m (Switch w c)))
     = debounced_saves (calls m).
Proof.
  intros Hr Hm Hw. from_reachable m Hr Hm.
  all: destruct c; repeat (split; [exec; cbn; congruence|]);
    exec; cbn; congruence.
Qed.

(** ** After unmount *)

Lemma step_unmounted_calls f m e :
  Dead m -> calls (step f m e) = calls m.
Proof.
  intros H. dead_intro m H.
  destruct e as [v | c | w c | ok | ms |]; exec; reflexivity.
Qed.

(** X9. Once the component is unmounted nothing it left behind runs: no
    sequence of later events, time passing included, adds a call to the
    log, and no timer is pending. *)
Theorem nothing_happens_after_unmount f m es :
  reachable f m -> mounted m = false ->
  calls (run f m es) = calls m
  /\ timers (run f m es) = []
  /\ mounted (run f m es) = false.
Proof.
  intros Hr Hm.
  assert (HD : Dead m).
  { destruct (reachable_cases f m Hr) as [H | H]; [|exact H].
    destruct H as [Hmt _ _ _ _ _ _ _ _ _]. congruence. }
  clear Hr Hm. revert m HD.
  induction es as [| e es IH]; intros m HD.
  - cbn. destruct HD. auto.
  - rewrite run_cons.
    destruct (IH _ (step_Dead f m e HD)) as (Hc & Ht & Hmt).
    rewrite Hc, (step_unmounted_calls f m e HD). auto.
Qed.

(** ** After the debounced save *)

(** X10. When the timer callback has run, the buffer goes back to the
    content last loaded: what was typed stays in the buffer only if
    nothing is loaded. *)
Theorem buffer_reverts_after_flush f m ms :
  reachable f m -> mounted m = true -> dirty m = true ->
  DEBOUNCE_MS <= ms ->
  value (step f m (Elapse ms)) = seeded (content m) (value m)
  /\ content (step f m (Elapse ms)) = content m
  /\ timers (step f m (Elapse ms)) = [].
Proof.
  intros Hr Hm Hd Hms. from_reachable m Hr Hm.
  split; [|split]; exec; done_fields.
Qed.

(** ** The identity of the save hook's result *)

(** X11. The cleanup of the unmount effect depends on [saveMutation].
    Take a dirty component, and a hook that returns another object at the
    coming render than at the previous one.  An edit that changes the
    buffer makes the cleanup run, and it saves the buffer as it was
    before the edit.  An edit that repeats the buffer causes no render:
    the cleanup does not run and nothing is saved. *)
Theorem new_mutation_object_saves_previous_buffer f m v :
  reachable f m -> mounted m = true -> dirty m = true ->
  f (pred (renders m)) <> f (renders m) ->
  (v <> value m ->
   saves (calls (step f m (Edit v)))
   = (AtUnmount, workspaceId m, value m) :: saves (calls m))
  /\ (v = value m ->
      saves (calls (step f m (Edit v))) = saves (calls m)).
Proof.
  intros Hr Hm Hd Hf. from_reachable m Hr Hm.
  split; intros Hv; cbn in Hv; exec; cbn; congruence.
Qed.

(** X12. When the hook returns the same object at every render, the
    cleanup of the unmount effect saves at unmount only: no other event
    adds a save from that cleanup. *)
Theorem stable_mutation_saves_at_unmount_only f m e :
  (forall a b, f a = f b) ->
  reachable f m ->
  e <> Unmount ->
  unmount_saves (calls (step f m e)) = unmount_saves (calls m).
Proof.
  intros Hs Hr He. destruct (reachable_cases f m Hr) as [H | H].
  - inv_intro m H;
      (destruct e as [v | c | w c | ok | ms |]; try destruct c);
      try congruence; exec; cbn; reflexivity.
  - now rewrite (step_unmounted_calls f m e H).
Qed.

(** X13. With such a hook the settling of a save, with success or with
    failure, changes nothing the component does: buffer, dirty flag,
    pending timer and log stay as they are. *)
Theorem save_settlement_is_inert f m ok :
  (forall a b, f a = f b) ->
  reachable f m -> mounted m = true ->
  value (step f m (SaveSettled ok)) = value m
  /\ dirty (step f m (SaveSettled ok)) = dirty m
  /\ timers (step f m (SaveSettled ok)) = timers m
  /\ calls (step f m (SaveSettled ok)) = calls m.
Proof.
  intros Hs Hr Hm. from_reachable m Hr Hm.
  all: repeat (split; [exec; reflexivity|]); exec; reflexivity.
Qed.

(** X14. With such a hook a load that arrives while the component is dirty
    does not touch the pending timer: its deadline stays, and nothing is
    called. *)
Theorem load_does_not_postpone_save f m c :
  (forall a b, f a = f b) ->
  reachable f m -> mounted m = true -> dirty m = true ->
  timers (step f m (Loaded c)) = timers m
  /\ calls (step f m (Loaded c)) = calls m
  /\ content (step f m (Loaded c)) = Some c.
Proof.
  intros Hs Hr Hm Hd. from_reachable m Hr Hm.
  repeat (split; [exec; reflexivity|]); exec; reflexivity.
Qed.

(** X15. The debounce effect depends on [saveMutation] too: when the hook
    returns another object than at the previous render, the render that
    follows the settling of a save clears the pending timer and arms a new
    one, due a full quiet period later. *)
Theorem new_mutation_object_postpones_save f m ok :
  reachable f m -> mounted m = true -> dirty m = true ->
  f (pred (renders m)) <> f (renders m) ->
  timers (step f m (SaveSettled ok))
  = [mkTimer (next_timer m) (now m + DEBOUNCE_MS) (workspaceId m) (value m)]
  /\ cancels (calls (step f m (SaveSettled ok))) = S (cancels (calls m))
  /\ value (step f m (SaveSettled ok)) = value m
  /\ dirty (step f m (SaveSettled ok)) = true.
Proof.
  intros Hr Hm Hd Hf. from_reachable m Hr Hm.
  repeat (split; [exec; cbn; congruence|]); exec; cbn; congruence.
Qed.

(** X16. With such a hook the debounced save is issued twice: once by the
    timer callback and once more, with the same identifier and content,
    by the cleanup of the unmount effect in the render that follows. *)
Theorem new_mutation_object_doubles_debounced_save f m ms :
  reachable f m -> mounted m = true -> dirty m = true ->
  DEBOUNCE_MS <= ms ->
  f (pred (renders m)) <> f (renders m) ->
  saves (calls (step f m (Elapse ms)))
  = (AtUnmount, workspaceId m, value m)
      :: (AtDebounce, workspaceId m, value m) :: saves (calls m).
Proof.
  intros Hr Hm Hd Hms Hf. from_reachable m Hr Hm.
  exec; cbn; try congruence; exfalso; unfold DEBOUNCE_MS in *; lia.
Qed.

(** ** What the user sees *)

(** X17. Right after an edit the editor shows the edited text, and the
    footer reads "Unsaved" unless a save is pending. *)
Theorem view_after_edit f m v isPending :
  reachable f m -> mounted m = true ->
  view false None isPending (step f m (Edit v))
  = EditorView v (if isPending then "Saving..." else "Unsaved").
Proof.
  intros Hr Hm. from_reachable m Hr Hm.
  all: exec; destruct isPending; reflexivity.
Qed.

(** ** The further properties at concrete inputs *)

Lemma reachable_example_fresh_dirty :
  reachable fresh_mutation example_fresh_dirty.
Proof. apply reachable_run. apply reach_mount. Qed.

(** [refs_track_state] after an edit and a switch. *)
Lemma refs_track_state_witness :
  valueRef (run stable_mutation example_mount [Edit "abc"; Switch "B" None])
  = "abc".
Proof.
  destruct (refs_track_state stable_mutation
              (run stable_mutation example_mount
                 [Edit "abc"; Switch "B" None])) as [H _].
  - apply reachable_example.
  - vm_compute. reflexivity.
  - rewrite H. vm_compute. reflexivity.
Defined.

(** [clean_buffer_is_loaded_content] once a save has gone out. *)
Lemma clean_buffer_is_loaded_content_witness :
  value (run stable_mutation example_mount [Edit "abc"; Elapse 1000])
  = "hello".
Proof.
  apply (clean_buffer_is_loaded_content stable_mutation
           (run stable_mutation example_mount [Edit "abc"; Elapse 1000])).
  - apply reachable_example.
  - vm_compute. reflexivity.
  - vm_compute. reflexivity.
  - vm_compute. reflexivity.
Defined.

(** [dirty_iff_one_pending_timer] 300 ms after an edit: the component is
    dirty and one timer is pending for "A" and "abc". *)
Lemma dirty_iff_one_pending_timer_witness :
  exists id d,
    timers (run stable_mutation example_mount [Edit "abc"; Elapse 300])
    = [mkTimer id d "A" "abc"]
    /\ debounce_cleanup
         (run stable_mutation example_mount [Edit "abc"; Elapse 300])
       = Some id
    /\ 300 < d <= 300 + DEBOUNCE_MS.
Proof.
  destruct (dirty_iff_one_pending_timer stable_mutation
              (run stable_mutation example_mount [Edit "abc"; Elapse 300]))
    as [H _].
  - apply reachable_example.
  - vm_compute. reflexivity.
  - apply H. vm_compute. reflexivity.
Defined.

(** [clean_component_never_saves] for a switch of the clean component. *)
Lemma clean_component_never_saves_witness :
  saves (calls (step stable_mutation example_mount (Switch "B" None)))
  = saves (calls example_mount).
Proof.
  apply (clean_component_never_saves stable_mutation example_mount).
  - apply (reachable_example []).
  - vm_compute. reflexivity.
  - vm_compute. reflexivity.
Defined.

(** [saves_carry_the_buffer] for the unmount of the edited component. *)
Lemma saves_carry_the_buffer_witness :
  exists new,
    saves (calls (run stable_mutation example_mount [Edit "abc"; Unmount]))
    = (new ++ saves (calls (run stable_mutation example_mount [Edit "abc"])))%list
    /\ Forall (fun s => snd s = "abc") new.
Proof.
  apply (saves_carry_the_buffer stable_mutation
           (run stable_mutation example_mount [Edit "abc"]) Unmount).
  apply reachable_example.
Defined.

(** [only_edits_make_dirty] for a load. *)
Lemma only_edits_make_dirty_witness :
  dirty (step stable_mutation example_mount (Loaded "x")) = false.
Proof.
  apply (only_edits_make_dirty stable_mutation example_mount).
  - apply (reachable_example []).
  - vm_compute. reflexivity.
  - vm_compute. reflexivity.
  - intros v. discriminate.
Defined.

(** [switch_adopts_new_workspace] from "A", edited, to "B", loaded. *)
Lemma switch_adopts_new_workspace_witness :
  value (run stable_mutation example_mount
           [Edit "abc"; Switch "B" (Some "bee")]) = "bee".
Proof.
  destruct (switch_adopts_new_workspace stable_mutation
              (run stable_mutation example_mount [Edit "abc"])
              "B" (Some "bee")) as (_ & _ & _ & H & _).
  - apply reachable_example.
  - vm_compute. reflexivity.
  - vm_compute. discriminate.
  - exact H.
Defined.

(** [nothing_happens_after_unmount] for an edit and a long wait. *)
Lemma nothing_happens_after_unmount_witness :
  calls (run stable_mutation example_mount
           [Edit "abc"; Unmount; Edit "late"; Elapse 5000])
  = calls (run stable_mutation example_mount [Edit "abc"; Unmount]).
Proof.
  destruct (nothing_happens_after_unmount stable_mutation
              (run stable_mutation example_mount [Edit "abc"; Unmount])
              [Edit "late"; Elapse 5000]) as [H _].
  - apply reachable_example.
  - vm_compute. reflexivity.
  - rewrite <- H. vm_compute. reflexivity.
Defined.

(** [buffer_reverts_after_flush] one quiet period after an edit. *)
Lemma buffer_reverts_after_flush_witness :
  value (run stable_mutation example_mount [Edit "abc"; Elapse 1000])
  = "hello".
Proof.
  destruct (buffer_reverts_after_flush stable_mutation
              (run stable_mutation example_mount [Edit "abc"]) 1000)
    as [H _].
  - apply reachable_example.
  - vm_compute. reflexivity.
  - vm_compute. reflexivity.
  - unfold DEBOUNCE_MS. lia.
  - exact H.
Defined.

(** [new_mutation_object_saves_previous_buffer]: the buffer is "a" and
    "ab" is typed. *)
Lemma new_mutation_object_saves_previous_buffer_witness :
  saves (calls (step fresh_mutation example_fresh_dirty (Edit "ab")))
  = [(AtUnmount, "A", "a")].
Proof.
  destruct (new_mutation_object_saves_previous_buffer fresh_mutation
              example_fresh_dirty "ab") as [H _].
  - apply reachable_example_fresh_dirty.
  - vm_compute. reflexivity.
  - vm_compute. reflexivity.
  - vm_compute. discriminate.
  - apply H. vm_compute. discriminate.
Defined.

(** [stable_mutation_saves_at_unmount_only] for a switch of the edited
    component. *)
Lemma stable_mutation_saves_at_unmount_only_witness :
  unmount_saves
    (calls (run stable_mutation example_mount [Edit "abc"; Switch "B" None]))
  = [].
Proof.
  transitivity
    (unmount_saves (calls (run stable_mutation example_mount [Edit "abc"]))).
  - apply (stable_mutation_saves_at_unmount_only stable_mutation
             (run stable_mutation example_mount [Edit "abc"])
             (Switch "B" None)).
    + reflexivity.
    + apply reachable_example.
    + discriminate.
  - vm_compute. reflexivity.
Defined.

(** [save_settlement_is_inert] for a failed save while an edit is
    pending. *)
Lemma save_settlement_is_inert_witness :
  timers (run stable_mutation example_mount [Edit "abc"; SaveSettled false])
  = [mkTimer 0 1000 "A" "abc"].
Proof.
  destruct (save_settlement_is_inert stable_mutation
              (run stable_mutation example_mount [Edit "abc"]) false)
    as (_ & _ & H & _).
  - reflexivity.
  - apply reachable_example.
  - vm_compute. reflexivity.
  - exact H.
Defined.

(** [load_does_not_postpone_save] for a load 900 ms after an edit. *)
Lemma load_does_not_postpone_save_witness :
  timers (run stable_mutation example_mount
            [Edit "abc"; Elapse 900; Loaded "x"])
  = [mkTimer 0 1000 "A" "abc"].
Proof.
  destruct (load_does_not_postpone_save stable_mutation
              (run stable_mutation example_mount [Edit "abc"; Elapse 900])
              "x") as [H _].
  - reflexivity.
  - apply reachable_example.
  - vm_compute. reflexivity.
  - vm_compute. reflexivity.
  - exact H.
Defined.

(** [new_mutation_object_postpones_save]: the timer was due at 1000; a
    save settles at 900 and the new timer is due at 1900. *)
Lemma new_mutation_object_postpones_save_witness :
  timers (run fresh_mutation example_fresh_dirty
            [Elapse 900; SaveSettled true])
  = [mkTimer 1 1900 "A" "a"].
Proof.
  destruct (new_mutation_object_postpones_save fresh_mutation
              (run fresh_mutation example_fresh_dirty [Elapse 900]) true)
    as [H _].
  - apply reachable_run. apply reachable_example_fresh_dirty.
  - vm_compute. reflexivity.
  - vm_compute. reflexivity.
  - vm_compute. discriminate.
  - exact H.
Defined.

(** [new_mutation_object_doubles_debounced_save] one quiet period after
    the edit. *)
Lemma new_mutation_object_doubles_debounced_save_witness :
  saves (calls (step fresh_mutation example_fresh_dirty (Elapse 1000)))
  = [(AtUnmount, "A", "a"); (AtDebounce, "A", "a")].
Proof.
  apply (new_mutation_object_doubles_debounced_save fresh_mutation
           example_fresh_dirty 1000).
  - apply reachable_example_fresh_dirty.
  - vm_compute. reflexivity.
  - vm_compute. reflexivity.
  - unfold DEBOUNCE_MS. lia.
  - vm_compute. discriminate.
Defined.

(** [view_after_edit] with no save pending. *)
Lemma view_after_edit_witness :
  view false None false (step stable_mutation example_mount (Edit "abc"))
  = EditorView "abc" "Unsaved".
Proof.
  apply (view_after_edit stable_mutation example_mount "abc" false).
  - apply (reachable_example []).
  - vm_compute. reflexivity.
Defined.

(** * The workspace switch with a new save object at every render *)

(** ** Renders are counted from the first one *)







